(** * The system slice of the InvokeAI web frontend

    A shallow embedding of
    [invokeai/frontend/web/src/features/system/store/systemSlice.ts]:
    the slice state, the case reducers of [createSlice] (the preference
    setters of [reducers] and the socket handlers of [extraReducers]),
    the migration of persisted shapes and the persist configuration.

    Redux Toolkit runs every case reducer on an immer draft: the
    assignments of a handler are applied in order to one private copy of
    the state, which becomes the next state.  A handler is therefore a
    function from the state and the action to the next state, and its
    assignments compose as field updates. *)

From Stdlib Require Import ZArith.
From stdpp Require Import gmap strings list fin_maps.

Open Scope string_scope.
Open Scope Z_scope.

(** ** Arrays of strings *)

(** [Array.prototype.includes] on an array of strings: a left-to-right
    scan comparing with SameValueZero, which on strings is equality. *)
Fixpoint includes (arr : list string) (x : string) : bool :=
  match arr with
  | [] => false
  | y :: rest => if String.eqb y x then true else includes rest x
  end.

(** [Array.prototype.push] of one element. *)
Definition push (arr : list string) (x : string) : list string := arr ++ [x].

Section SystemSlice.

(** [progress_image] is carried through untouched, and
    [calculateStepPercentage] is imported from
    [features/system/util/calculateStepPercentage]; both are kept
    abstract. *)
Variable ProgressImage : Type.
Variable Percentage : Type.
Variable calculateStepPercentage : Z -> Z -> Z -> Percentage.

(** ** The state *)

Record DenoiseProgress := {
  step : Z;
  total_steps : Z;
  order : Z;
  percentage : Percentage;
  progress_image : ProgressImage;
  session_id : string;
  batch_id : string;
}.

(** [SystemState]; [status] is a string, as the handlers assign string
    literals to it. *)
Record SystemState := {
  _version : Z;
  isConnected : bool;
  shouldConfirmOnDelete : bool;
  enableImageDebugging : bool;
  denoiseProgress : option DenoiseProgress;
  shouldAntialiasProgressImage : bool;
  consoleLogLevel : string;
  shouldLogToConsole : bool;
  language : string;
  shouldUseNSFWChecker : bool;
  shouldUseWatermarker : bool;
  shouldEnableInformationalPopovers : bool;
  status : string;
  cancellations : list string;
}.

Definition initialSystemState : SystemState := {|
  _version := 1;
  isConnected := false;
  shouldConfirmOnDelete := true;
  enableImageDebugging := false;
  denoiseProgress := None;
  shouldAntialiasProgressImage := false;
  consoleLogLevel := "debug";
  shouldLogToConsole := true;
  language := "en";
  shouldUseNSFWChecker := false;
  shouldUseWatermarker := false;
  shouldEnableInformationalPopovers := false;
  status := "DISCONNECTED";
  cancellations := [];
|}.

(** Field assignments [state.f = v]. *)
Definition set_isConnected (v : bool) (s : SystemState) : SystemState :=
  let 'Build_SystemState a _ c d e f g h i j k l m n := s in
  Build_SystemState a v c d e f g h i j k l m n.
Definition set_shouldConfirmOnDelete (v : bool) (s : SystemState) : SystemState :=
  let 'Build_SystemState a b _ d e f g h i j k l m n := s in
  Build_SystemState a b v d e f g h i j k l m n.
Definition set_enableImageDebugging (v : bool) (s : SystemState) : SystemState :=
  let 'Build_SystemState a b c _ e f g h i j k l m n := s in
  Build_SystemState a b c v e f g h i j k l m n.
Definition set_denoiseProgress (v : option DenoiseProgress) (s : SystemState)
  : SystemState :=
  let 'Build_SystemState a b c d _ f g h i j k l m n := s in
  Build_SystemState a b c d v f g h i j k l m n.
Definition set_shouldAntialiasProgressImage (v : bool) (s : SystemState)
  : SystemState :=
  let 'Build_SystemState a b c d e _ g h i j k l m n := s in
  Build_SystemState a b c d e v g h i j k l m n.
Definition set_consoleLogLevel (v : string) (s : SystemState) : SystemState :=
  let 'Build_SystemState a b c d e f _ h i j k l m n := s in
  Build_SystemState a b c d e f v h i j k l m n.
Definition set_shouldLogToConsole (v : bool) (s : SystemState) : SystemState :=
  let 'Build_SystemState a b c d e f g _ i j k l m n := s in
  Build_SystemState a b c d e f g v i j k l m n.
Definition set_language (v : string) (s : SystemState) : SystemState :=
  let 'Build_SystemState a b c d e f g h _ j k l m n := s in
  Build_SystemState a b c d e f g h v j k l m n.
Definition set_shouldUseNSFWChecker (v : bool) (s : SystemState) : SystemState :=
  let 'Build_SystemState a b c d e f g h i _ k l m n := s in
  Build_SystemState a b c d e f g h i v k l m n.
Definition set_shouldUseWatermarker (v : bool) (s : SystemState) : SystemState :=
  let 'Build_SystemState a b c d e f g h i j _ l m n := s in
  Build_SystemState a b c d e f g h i j v l m n.
Definition set_shouldEnableInformationalPopovers (v : bool) (s : SystemState)
  : SystemState :=
  let 'Build_SystemState a b c d e f g h i j k _ m n := s in
  Build_SystemState a b c d e f g h i j k v m n.
Definition set_status (v : string) (s : SystemState) : SystemState :=
  let 'Build_SystemState a b c d e f g h i j k l _ n := s in
  Build_SystemState a b c d e f g h i j k l v n.
Definition set_cancellations (v : list string) (s : SystemState) : SystemState :=
  let 'Build_SystemState a b c d e f g h i j k l m _ := s in
  Build_SystemState a b c d e f g h i j k l m v.

(** ** The actions *)

(** [action.payload.data] of [socketGeneratorProgress], with the fields
    the handler destructures. *)
Record GeneratorProgressData := {
  data_step : Z;
  data_total_steps : Z;
  data_order : Z;
  data_progress_image : ProgressImage;
  graph_execution_state_id : string;
  queue_batch_id : string;
}.

(** [action.payload.data.queue_item] of [socketQueueItemStatusChanged],
    with the fields the handler reads. *)
Record QueueItem := {
  queue_item_status : string;
  queue_item_session_id : string;
}.

Inductive Action :=
| setShouldConfirmOnDelete (payload : bool)
| setEnableImageDebugging (payload : bool)
| consoleLogLevelChanged (payload : string)
| shouldLogToConsoleChanged (payload : bool)
| shouldAntialiasProgressImageChanged (payload : bool)
| languageChanged (payload : string)
| shouldUseNSFWCheckerChanged (payload : bool)
| shouldUseWatermarkerChanged (payload : bool)
| setShouldEnableInformationalPopovers (payload : bool)
| socketConnected
| socketDisconnected
| socketInvocationStarted
| socketGeneratorProgress (data : GeneratorProgressData)
| socketInvocationComplete
| socketGraphExecutionStateComplete
| socketModelLoadStarted
| socketModelLoadCompleted
| socketQueueItemStatusChanged (queue_item : QueueItem).

(** The statuses on which a queue item is finished. *)
Definition terminalStatuses : list string := ["completed"; "canceled"; "failed"].

(** ** The reducer *)

Definition systemReducer (state : SystemState) (action : Action) : SystemState :=
  match action with
  | setShouldConfirmOnDelete payload => set_shouldConfirmOnDelete payload state
  | setEnableImageDebugging payload => set_enableImageDebugging payload state
  | consoleLogLevelChanged payload => set_consoleLogLevel payload state
  | shouldLogToConsoleChanged payload => set_shouldLogToConsole payload state
  | shouldAntialiasProgressImageChanged payload =>
      set_shouldAntialiasProgressImage payload state
  | languageChanged payload => set_language payload state
  | shouldUseNSFWCheckerChanged payload => set_shouldUseNSFWChecker payload state
  | shouldUseWatermarkerChanged payload => set_shouldUseWatermarker payload state
  | setShouldEnableInformationalPopovers payload =>
      set_shouldEnableInformationalPopovers payload state
  | socketConnected =>
      let state := set_isConnected true state in
      let state := set_denoiseProgress None state in
      set_status "CONNECTED" state
  | socketDisconnected =>
      let state := set_isConnected false state in
      let state := set_denoiseProgress None state in
      set_status "DISCONNECTED" state
  | socketInvocationStarted =>
      let state := set_cancellations [] state in
      let state := set_denoiseProgress None state in
      set_status "PROCESSING" state
  | socketGeneratorProgress data =>
      let step := data_step data in
      let total_steps := data_total_steps data in
      let order := data_order data in
      let progress_image := data_progress_image data in
      let session_id := graph_execution_state_id data in
      let batch_id := queue_batch_id data in
      if includes (cancellations state) session_id then state
      else
        let state :=
          set_denoiseProgress
            (Some {| step := step;
                     total_steps := total_steps;
                     order := order;
                     percentage := calculateStepPercentage step total_steps order;
                     progress_image := progress_image;
                     session_id := session_id;
                     batch_id := batch_id |}) state in
        set_status "PROCESSING" state
  | socketInvocationComplete =>
      let state := set_denoiseProgress None state in
      set_status "CONNECTED" state
  | socketGraphExecutionStateComplete =>
      let state := set_denoiseProgress None state in
      set_status "CONNECTED" state
  | socketModelLoadStarted => set_status "LOADING_MODEL" state
  | socketModelLoadCompleted => set_status "CONNECTED" state
  | socketQueueItemStatusChanged queue_item =>
      if includes terminalStatuses (queue_item_status queue_item) then
        let state := set_status "CONNECTED" state in
        let state := set_denoiseProgress None state in
        set_cancellations
          (push (cancellations state) (queue_item_session_id queue_item)) state
      else state
  end.

(** The store dispatches actions one at a time: a run of the slice is
    the left fold of the reducer over the actions. *)
Definition dispatchAll (actions : list Action) (state : SystemState) : SystemState :=
  fold_left systemReducer actions state.

End SystemSlice.

Arguments Build_DenoiseProgress {_ _}.
Arguments step {_ _}.
Arguments total_steps {_ _}.
Arguments order {_ _}.
Arguments percentage {_ _}.
Arguments progress_image {_ _}.
Arguments session_id {_ _}.
Arguments batch_id {_ _}.
Arguments Build_SystemState {_ _}.
Arguments _version {_ _}.
Arguments isConnected {_ _}.
Arguments shouldConfirmOnDelete {_ _}.
Arguments enableImageDebugging {_ _}.
Arguments denoiseProgress {_ _}.
Arguments shouldAntialiasProgressImage {_ _}.
Arguments consoleLogLevel {_ _}.
Arguments shouldLogToConsole {_ _}.
Arguments language {_ _}.
Arguments shouldUseNSFWChecker {_ _}.
Arguments shouldUseWatermarker {_ _}.
Arguments shouldEnableInformationalPopovers {_ _}.
Arguments status {_ _}.
Arguments cancellations {_ _}.
Arguments initialSystemState {_ _}.
Arguments set_isConnected {_ _}.
Arguments set_denoiseProgress {_ _}.
Arguments set_status {_ _}.
Arguments set_cancellations {_ _}.
Arguments Build_GeneratorProgressData {_}.
Arguments data_step {_}.
Arguments data_total_steps {_}.
Arguments data_order {_}.
Arguments data_progress_image {_}.
Arguments graph_execution_state_id {_}.
Arguments queue_batch_id {_}.
Arguments setShouldConfirmOnDelete {_}.
Arguments setEnableImageDebugging {_}.
Arguments consoleLogLevelChanged {_}.
Arguments shouldLogToConsoleChanged {_}.
Arguments shouldAntialiasProgressImageChanged {_}.
Arguments languageChanged {_}.
Arguments shouldUseNSFWCheckerChanged {_}.
Arguments shouldUseWatermarkerChanged {_}.
Arguments setShouldEnableInformationalPopovers {_}.
Arguments socketConnected {_}.
Arguments socketDisconnected {_}.
Arguments socketInvocationStarted {_}.
Arguments socketGeneratorProgress {_}.
Arguments socketInvocationComplete {_}.
Arguments socketGraphExecutionStateComplete {_}.
Arguments socketModelLoadStarted {_}.
Arguments socketModelLoadCompleted {_}.
Arguments socketQueueItemStatusChanged {_}.
Arguments systemReducer {_ _}.
Arguments dispatchAll {_ _}.

(** ** Persisted shapes *)

Section Persistence.

Context {ProgressImage Percentage : Type}.

(** The values held by the fields of the slice. *)
Inductive Value :=
| VNull
| VBoolean (b : bool)
| VNumber (n : Z)
| VString (s : string)
| VStrings (arr : list string)
| VDenoiseProgress (p : DenoiseProgress ProgressImage Percentage).

(** A state seen as the plain object it is at run time: its own keys and
    their values. *)
Definition toObject (s : SystemState ProgressImage Percentage) : gmap string Value :=
  list_to_map [
    ("_version", VNumber (_version s));
    ("isConnected", VBoolean (isConnected s));
    ("shouldConfirmOnDelete", VBoolean (shouldConfirmOnDelete s));
    ("enableImageDebugging", VBoolean (enableImageDebugging s));
    ("denoiseProgress", from_option VDenoiseProgress VNull (denoiseProgress s));
    ("shouldAntialiasProgressImage", VBoolean (shouldAntialiasProgressImage s));
    ("consoleLogLevel", VString (consoleLogLevel s));
    ("shouldLogToConsole", VBoolean (shouldLogToConsole s));
    ("language", VString (language s));
    ("shouldUseNSFWChecker", VBoolean (shouldUseNSFWChecker s));
    ("shouldUseWatermarker", VBoolean (shouldUseWatermarker s));
    ("shouldEnableInformationalPopovers",
      VBoolean (shouldEnableInformationalPopovers s));
    ("status", VString (status s));
    ("cancellations", VStrings (cancellations s))
  ].

Definition asBoolean (v : Value) : option bool :=
  match v with VBoolean b => Some b | _ => None end.
Definition asNumber (v : Value) : option Z :=
  match v with VNumber n => Some n | _ => None end.
Definition asString (v : Value) : option string :=
  match v with VString s => Some s | _ => None end.
Definition asStrings (v : Value) : option (list string) :=
  match v with VStrings arr => Some arr | _ => None end.
Definition asDenoiseProgress (v : Value)
  : option (option (DenoiseProgress ProgressImage Percentage)) :=
  match v with
  | VNull => Some None
  | VDenoiseProgress p => Some (Some p)
  | _ => None
  end.

(** Reading an object back as a [SystemState]: every field present with
    a value of its type. *)
Definition ofObject (o : gmap string Value)
  : option (SystemState ProgressImage Percentage) :=
  a ← o !! "_version" ≫= asNumber;
  b ← o !! "isConnected" ≫= asBoolean;
  c ← o !! "shouldConfirmOnDelete" ≫= asBoolean;
  d ← o !! "enableImageDebugging" ≫= asBoolean;
  e ← o !! "denoiseProgress" ≫= asDenoiseProgress;
  f ← o !! "shouldAntialiasProgressImage" ≫= asBoolean;
  g ← o !! "consoleLogLevel" ≫= asString;
  h ← o !! "shouldLogToConsole" ≫= asBoolean;
  i ← o !! "language" ≫= asString;
  j ← o !! "shouldUseNSFWChecker" ≫= asBoolean;
  k ← o !! "shouldUseWatermarker" ≫= asBoolean;
  l ← o !! "shouldEnableInformationalPopovers" ≫= asBoolean;
  m ← o !! "status" ≫= asString;
  n ← o !! "cancellations" ≫= asStrings;
  Some (Build_SystemState a b c d e f g h i j k l m n).

(** [migrateSystemState], on a persisted shape that is an object:
    [state._version = 1] when ['_version' in state] is false, whatever
    the other keys hold; the object is returned. *)
Definition migrateSystemState (state : gmap string Value) : gmap string Value :=
  match state !! "_version" with
  | None => <["_version" := VNumber 1]> state
  | Some _ => state
  end.

(** [PersistConfig<SystemState>], with the fields the slice gives it. *)
Record PersistConfig := {
  name : string;
  initialState : SystemState ProgressImage Percentage;
  migrate : gmap string Value -> gmap string Value;
  persistDenylist : list string;
}.

Definition systemPersistConfig : PersistConfig := {|
  name := "system";
  initialState := initialSystemState;
  migrate := migrateSystemState;
  persistDenylist := ["isConnected"; "denoiseProgress"; "status"; "cancellations"];
|}.

(** Modelled from the spec: the store's persist step, which lives in
    [app/store/store] and is not part of this file.  Fields on the
    denylist are never written to durable storage. *)
Definition persist (config : PersistConfig) (state : gmap string Value)
  : gmap string Value :=
  filter (λ kv, kv.1 ∉ persistDenylist config) state.

(** Modelled from the spec: the store's restore step, which lives in
    [app/store/store] and is not part of this file.  The persisted shape
    is migrated; fields on the denylist are reset to their initial
    values whatever was persisted for them, the other fields are taken
    from the migrated shape. *)
Definition restore (config : PersistConfig) (persisted : gmap string Value)
  : gmap string Value :=
  let migrated := migrate config persisted in
  filter (λ kv, kv.1 ∈ persistDenylist config) (toObject (initialState config))
  ∪ filter (λ kv, kv.1 ∉ persistDenylist config) migrated.

End Persistence.

Arguments Value : clear implicits.
Arguments PersistConfig : clear implicits.

(** ** Properties of states and runs *)

(** Modelled from the spec: the closed enumeration of statuses, the union
    type of [status] declared in [./types], which is not part of this
    file. *)
Definition systemStatuses : list string :=
  ["DISCONNECTED"; "CONNECTED"; "PROCESSING"; "LOADING_MODEL"].

Section Predicates.

Context {ProgressImage Percentage : Type}.
Implicit Types (state : SystemState ProgressImage Percentage)
               (action : Action ProgressImage).

Definition statusInEnumeration state : Prop := status state ∈ systemStatuses.

(** [denoiseProgress] is non-null only when the status is PROCESSING. *)
Definition progressOnlyWhenProcessing state : Prop :=
  denoiseProgress state ≠ None → status state = "PROCESSING".

(** [denoiseProgress] is non-null only when the status is one of
    PROCESSING, LOADING_MODEL and CONNECTED. *)
Definition progressOnlyWhenOnline state : Prop :=
  denoiseProgress state ≠ None →
  status state ∈ ["PROCESSING"; "LOADING_MODEL"; "CONNECTED"].

Definition isModelLoad action : bool :=
  match action with
  | socketModelLoadStarted | socketModelLoadCompleted => true
  | _ => false
  end.

(** The session a queue-item action reports as finished, if any. *)
Definition finishedSession action : option string :=
  match action with
  | socketQueueItemStatusChanged queue_item =>
      if includes terminalStatuses (queue_item_status queue_item)
      then Some (queue_item_session_id queue_item)
      else None
  | _ => None
  end.

(** Along the run of [actions] from [state], no action reports as
    finished a session that [cancellations] already lists when the action
    is handled. *)
Fixpoint finishedOnce (calculateStepPercentage : Z → Z → Z → Percentage)
    (actions : list (Action ProgressImage)) state : bool :=
  match actions with
  | [] => true
  | action :: rest =>
      match finishedSession action with
      | Some session_id => negb (includes (cancellations state) session_id)
      | None => true
      end
      && finishedOnce calculateStepPercentage rest
           (systemReducer calculateStepPercentage state action)
  end.

(** The four fields of the denylist set to their initial values. *)
Definition resetTransient state : SystemState ProgressImage Percentage :=
  let initial : SystemState ProgressImage Percentage := initialSystemState in
  let state := set_isConnected (isConnected initial) state in
  let state := set_denoiseProgress (denoiseProgress initial) state in
  let state := set_status (status initial) state in
  set_cancellations (cancellations initial) state.

End Predicates.

(** ** Sample actions *)

Module Sample.

(** A stand-in for [calculateStepPercentage] on integer percentages. *)
Definition stepPercentage (step total_steps order : Z) : Z :=
  if total_steps =? 0 then 0 else (step * 100) / total_steps.

Definition progress (step : Z) (session_id : string) : Action unit :=
  socketGeneratorProgress {|
    data_step := step;
    data_total_steps := 10;
    data_order := 1;
    data_progress_image := tt;
    graph_execution_state_id := session_id;
    queue_batch_id := "b1";
  |}.

Definition queueItem (status session_id : string) : Action unit :=
  socketQueueItemStatusChanged
    {| queue_item_status := status; queue_item_session_id := session_id |}.

Definition run (actions : list (Action unit)) : SystemState unit Z :=
  dispatchAll stepPercentage actions initialSystemState.

(** A model starts loading while progress is displayed. *)
Definition modelLoadDuringProgress : list (Action unit) :=
  [socketConnected; socketInvocationStarted; progress 0 "s1"; socketModelLoadStarted].

(** Two queue items of one session finish. *)
Definition finishedTwice : list (Action unit) :=
  [queueItem "completed" "s1"; queueItem "completed" "s1"].

(** A persisted shape without a version marker. *)
Definition unversioned : gmap string (Value unit Z) :=
  {[ "language" := VString "de" ]}.

End Sample.

(** ** Kinds of actions and further properties of states *)

Section Kinds.

Context {ProgressImage Percentage : Type}.
Implicit Types (state : SystemState ProgressImage Percentage)
               (action : Action ProgressImage).

(** The actions of [reducers], the preference setters; the others are the
    socket actions of [extraReducers]. *)
Definition isPreference action : bool :=
  match action with
  | setShouldConfirmOnDelete _ | setEnableImageDebugging _
  | consoleLogLevelChanged _ | shouldLogToConsoleChanged _
  | shouldAntialiasProgressImageChanged _ | languageChanged _
  | shouldUseNSFWCheckerChanged _ | shouldUseWatermarkerChanged _
  | setShouldEnableInformationalPopovers _ => true
  | _ => false
  end.

Definition isInvocationStarted action : bool :=
  match action with
  | socketInvocationStarted => true
  | _ => false
  end.

(** A generator-progress action of the given session. *)
Definition isProgressOf (session : string) action : bool :=
  match action with
  | socketGeneratorProgress data => String.eqb (graph_execution_state_id data) session
  | _ => false
  end.

(** The status DISCONNECTED is shown only while [isConnected] is false. *)
Definition disconnectedIsOffline state : Prop :=
  status state = "DISCONNECTED" → isConnected state = false.

(** The session of the progress on display is not listed in
    [cancellations]. *)
Definition progressSessionNotCancelled state : Prop :=
  ∀ p, denoiseProgress state = Some p → session_id p ∉ cancellations state.

(** The percentage of the progress on display is the one computed from
    its own step, total and order. *)
Definition percentageFromSteps
    (calculateStepPercentage : Z → Z → Z → Percentage) state : Prop :=
  ∀ p, denoiseProgress state = Some p →
    percentage p = calculateStepPercentage (step p) (total_steps p) (order p).

End Kinds.

(** * Theorems *)

(** ** Membership in an array *)

Lemma includes_elem_of (arr : list string) (x : string) :
  includes arr x = true ↔ x ∈ arr.
Proof.
  induction arr as [|y rest IH]; simpl.
  - split; [discriminate | intros H; inversion H].
  - destruct (String.eqb_spec y x) as [->|Hne].
    + split; [intros _; left | done].
    + rewrite IH, elem_of_cons. split; [by right | by intros [?|?]].
Qed.

Lemma includes_not_elem_of (arr : list string) (x : string) :
  includes arr x = false ↔ x ∉ arr.
Proof.
  rewrite <- includes_elem_of. destruct (includes arr x); split; congruence.
Qed.

Lemma terminal_status_cases (s : string) :
  includes terminalStatuses s = true ↔
  s = "completed" ∨ s = "canceled" ∨ s = "failed".
Proof.
  rewrite includes_elem_of. unfold terminalStatuses.
  rewrite !elem_of_cons, elem_of_nil. tauto.
Qed.

Section Reducer.

Context {ProgressImage Percentage : Type}.
Variable calculateStepPercentage : Z → Z → Z → Percentage.
Implicit Types (state : SystemState ProgressImage Percentage)
               (action : Action ProgressImage).


(** ** The progress guard *)

(** C1: when the session of a generator-progress event is already listed
    in [cancellations], handling the event returns the state it was given:
    no field changes, status and progress included. *)
Theorem progress_of_cancelled_session_is_dropped state data :
  graph_execution_state_id data ∈ cancellations state →
  systemReducer calculateStepPercentage state (socketGeneratorProgress data) = state.
Proof.
  intros Hin. apply includes_elem_of in Hin.
  unfold systemReducer. now rewrite Hin.
Qed.

(** ** Single events *)

(** C3: from any state, an invocation-started event gives a state with
    an empty [cancellations], no progress and status PROCESSING. *)
Theorem invocation_started_resets state :
  let state' := systemReducer calculateStepPercentage state socketInvocationStarted in
  cancellations state' = [] ∧
  denoiseProgress state' = None ∧
  status state' = "PROCESSING".
Proof. destruct state. simpl. auto. Qed.

(** C4: a queue-item event with status completed, canceled or failed
    gives status CONNECTED, no progress and the item's session listed in
    [cancellations]; with status pending or in_progress it returns the
    state unchanged. *)
Theorem queue_item_status_changed state queue_item :
  let state' :=
    systemReducer calculateStepPercentage state
      (socketQueueItemStatusChanged queue_item) in
  (queue_item_status queue_item ∈ ["completed"; "canceled"; "failed"] →
     status state' = "CONNECTED" ∧
     denoiseProgress state' = None ∧
     queue_item_session_id queue_item ∈ cancellations state') ∧
  (queue_item_status queue_item ∈ ["pending"; "in_progress"] →
     state' = state).
Proof.
  cbn [systemReducer]. split.
  - intros Hterm. apply includes_elem_of in Hterm.
    fold terminalStatuses in Hterm. rewrite Hterm.
    destruct state. simpl. repeat split.
    unfold push. apply elem_of_app. right. left.
  - intros Hlive.
    assert (includes terminalStatuses (queue_item_status queue_item) = false)
      as ->; [|done].
    rewrite !elem_of_cons, elem_of_nil in Hlive.
    destruct Hlive as [->| [->|[]]]; reflexivity.
Qed.

(** C5: connection established, invocation started, a first progress
    event of session s1, the queue item of s1 canceled, then a late
    progress event of s1: the run ends with status CONNECTED, no progress
    and [cancellations] equal to [s1]; the late event changes nothing. *)
Theorem late_progress_after_cancel_scenario
    (image0 image5 : ProgressImage) (batch0 batch5 : string) :
  let events := [
    socketConnected;
    socketInvocationStarted;
    socketGeneratorProgress
      {| data_step := 0; data_total_steps := 10; data_order := 1;
         data_progress_image := image0;
         graph_execution_state_id := "s1"; queue_batch_id := batch0 |};
    socketQueueItemStatusChanged
      {| queue_item_status := "canceled"; queue_item_session_id := "s1" |};
    socketGeneratorProgress
      {| data_step := 5; data_total_steps := 10; data_order := 1;
         data_progress_image := image5;
         graph_execution_state_id := "s1"; queue_batch_id := batch5 |}
  ] in
  let final := dispatchAll calculateStepPercentage events initialSystemState in
  status final = "CONNECTED" ∧
  denoiseProgress final = None ∧
  cancellations final = ["s1"] ∧
  final = dispatchAll calculateStepPercentage (take 4 events) initialSystemState.
Proof. simpl. repeat split. Qed.

(** ** The cancellation registry *)

(** C6: every event falls in one of three cases.  Invocation started
    empties [cancellations]; a queue-item event with a terminal status
    appends its session to [cancellations]; any other event leaves
    [cancellations] as it was. *)
Theorem cancellations_change_only_on_start_and_finish state action :
  let state' := systemReducer calculateStepPercentage state action in
  (action = socketInvocationStarted ∧ cancellations state' = [])
  ∨ (∃ queue_item,
       action = socketQueueItemStatusChanged queue_item ∧
       queue_item_status queue_item ∈ ["completed"; "canceled"; "failed"] ∧
       cancellations state' =
         push (cancellations state) (queue_item_session_id queue_item))
  ∨ (action ≠ socketInvocationStarted ∧
     finishedSession action = None ∧
     cancellations state' = cancellations state).
Proof.
  destruct action; cbn [systemReducer finishedSession];
    try (right; right; destruct state; by repeat split).
  - left. destruct state. by split.
  - right; right. repeat split; [done|].
    destruct (includes _ _); [done|]. by destruct state.
  - destruct (includes terminalStatuses (queue_item_status queue_item)) eqn:Hterm.
    + right; left. exists queue_item. repeat split.
      * by apply includes_elem_of.
      * by destruct state.
    + right; right. by repeat split.
Qed.

End Reducer.

(** ** Runs of the slice *)

Section Runs.

Context {ProgressImage Percentage : Type}.
Variable calculateStepPercentage : Z → Z → Z → Percentage.
Implicit Types (state : SystemState ProgressImage Percentage)
               (action : Action ProgressImage)
               (actions : list (Action ProgressImage)).


Lemma dispatch_cons action actions state :
  dispatchAll calculateStepPercentage (action :: actions) state =
  dispatchAll calculateStepPercentage actions
    (systemReducer calculateStepPercentage state action).
Proof. reflexivity. Qed.

(** A property that holds of the start state and that every action
    preserves holds at the end of every run. *)
Lemma dispatch_invariant (P : SystemState ProgressImage Percentage → Prop)
    (allowed : Action ProgressImage → bool) :
  (∀ state action, allowed action = true → P state →
     P (systemReducer calculateStepPercentage state action)) →
  ∀ actions state,
    forallb allowed actions = true → P state →
    P (dispatchAll calculateStepPercentage actions state).
Proof.
  intros Hstep actions.
  induction actions as [|action rest IH]; intros state Hall HP; [exact HP|].
  simpl in Hall. apply andb_prop in Hall as [Hone Hrest].
  rewrite dispatch_cons. apply IH; [exact Hrest|]. by apply Hstep.
Qed.

Lemma forallb_const_true actions : forallb (λ _, true) actions = true.
Proof. induction actions; simpl; auto. Qed.

(** *** Status and progress *)

Lemma status_reduce state action :
  status (systemReducer calculateStepPercentage state action) = status state
  ∨ status (systemReducer calculateStepPercentage state action) ∈ systemStatuses.
Proof.
  unfold systemStatuses.
  destruct action; cbn [systemReducer];
    try (left; by destruct state);
    try (right; destruct state; cbn; rewrite !elem_of_cons; tauto).
  - destruct (includes _ _); [by left|].
    right; destruct state; cbn; rewrite !elem_of_cons; tauto.
  - destruct (includes _ _); [|by left].
    right; destruct state; cbn; rewrite !elem_of_cons; tauto.
Qed.

Lemma statusInEnumeration_reduce state action :
  statusInEnumeration state →
  statusInEnumeration (systemReducer calculateStepPercentage state action).
Proof.
  unfold statusInEnumeration. intros Hin.
  destruct (status_reduce state action) as [->|H]; assumption.
Qed.

Lemma progressOnlyWhenOnline_reduce state action :
  progressOnlyWhenOnline state →
  progressOnlyWhenOnline (systemReducer calculateStepPercentage state action).
Proof.
  unfold progressOnlyWhenOnline. intros Hinv.
  destruct action; cbn [systemReducer];
    try (destruct state; cbn in *; first [exact Hinv | congruence]).
  - destruct (includes _ _); [exact Hinv|].
    destruct state; cbn. intros _. left.
  - destruct state; cbn in *. intros _. right; left.
  - destruct state; cbn in *. intros _. right; right; left.
  - destruct (includes _ _); [|exact Hinv].
    destruct state; cbn. congruence.
Qed.

Lemma progressOnlyWhenProcessing_reduce state action :
  negb (isModelLoad action) = true →
  progressOnlyWhenProcessing state →
  progressOnlyWhenProcessing (systemReducer calculateStepPercentage state action).
Proof.
  unfold progressOnlyWhenProcessing. intros Hload Hinv.
  destruct action; try discriminate Hload; cbn [systemReducer];
    try (destruct state; cbn in *; first [exact Hinv | congruence]).
  - destruct (includes _ _); [exact Hinv|]. by destruct state.
  - destruct (includes _ _); [|exact Hinv].
    destruct state; cbn. congruence.
Qed.

(** C2, amended: in every state reached from the initial state the status
    is one of the four statuses of the enumeration, and progress is
    non-null only when the status is PROCESSING, LOADING_MODEL or CONNECTED;
    when the run has no model-load event, progress is non-null only when
    the status is PROCESSING. *)
Theorem reachable_status_and_progress actions :
  let state := dispatchAll calculateStepPercentage actions initialSystemState in
  statusInEnumeration state ∧
  progressOnlyWhenOnline state ∧
  (forallb (λ action, negb (isModelLoad action)) actions = true →
   progressOnlyWhenProcessing state).
Proof.
  cbn zeta. split; [|split].
  - apply (dispatch_invariant statusInEnumeration (λ _, true)).
    + intros state action _. apply statusInEnumeration_reduce.
    + apply forallb_const_true.
    + unfold statusInEnumeration, systemStatuses. cbn. left.
  - apply (dispatch_invariant progressOnlyWhenOnline (λ _, true)).
    + intros state action _. apply progressOnlyWhenOnline_reduce.
    + apply forallb_const_true.
    + intros Hsome. by cbn in Hsome.
  - intros Hquiet.
    apply (dispatch_invariant progressOnlyWhenProcessing
             (λ action, negb (isModelLoad action))).
    + apply progressOnlyWhenProcessing_reduce.
    + exact Hquiet.
    + intros Hsome. by cbn in Hsome.
Qed.

(** *** Duplicates in the registry *)

Lemma cancellations_reduce state action :
  cancellations (systemReducer calculateStepPercentage state action) =
    match action with
    | socketInvocationStarted => []
    | _ =>
        match finishedSession action with
        | Some session_id => push (cancellations state) session_id
        | None => cancellations state
        end
    end.
Proof.
  destruct action; cbn [systemReducer finishedSession];
    try (by destruct state).
  - destruct (includes _ _); [done|]. by destruct state.
  - destruct (includes _ _); [|done]. by destruct state.
Qed.

Lemma NoDup_push (arr : list string) (x : string) :
  NoDup arr → x ∉ arr → NoDup (push arr x).
Proof.
  intros Hnd Hnew. unfold push. apply NoDup_app. split; [exact Hnd|]. split.
  - intros y Hy Hyx. apply list_elem_of_singleton in Hyx as ->. contradiction.
  - apply NoDup_singleton.
Qed.

Lemma finishedOnce_NoDup actions :
  ∀ state, finishedOnce calculateStepPercentage actions state = true →
    NoDup (cancellations state) →
    NoDup (cancellations (dispatchAll calculateStepPercentage actions state)).
Proof.
  induction actions as [|action rest IH]; intros state Honce Hnd; [exact Hnd|].
  cbn [finishedOnce] in Honce. apply andb_prop in Honce as [Hfresh Hrest].
  rewrite dispatch_cons. apply IH; [exact Hrest|].
  rewrite cancellations_reduce.
  destruct (finishedSession action) as [session_id|] eqn:Hfin.
  - assert (NoDup (push (cancellations state) session_id)) as Hpush.
    { apply NoDup_push; [exact Hnd|].
      apply includes_not_elem_of. by apply negb_true_iff. }
    destruct action; try discriminate Hfin; exact Hpush.
  - destruct action; first [exact Hnd | apply NoDup_nil_2].
Qed.

(** C10, amended: [cancellations] is an array that handlers append to and
    test for membership.  Along a run from the initial state in which no
    queue-item event reports as finished a session already listed when it
    is handled, [cancellations] holds no session twice. *)
Theorem cancellations_without_duplicates actions :
  finishedOnce calculateStepPercentage actions initialSystemState = true →
  NoDup (cancellations (dispatchAll calculateStepPercentage actions initialSystemState)).
Proof.
  intros Honce. apply finishedOnce_NoDup; [exact Honce|]. apply NoDup_nil_2.
Qed.

End Runs.

(** ** The persistence gate *)

Section PersistenceGate.

Context {ProgressImage Percentage : Type}.
Implicit Types (state : SystemState ProgressImage Percentage)
               (persisted : gmap string (Value ProgressImage Percentage)).

Local Notation "'config'" :=
  (systemPersistConfig : PersistConfig ProgressImage Percentage).

Lemma lookup_filter_key (Q : string → Prop) `{∀ key, Decision (Q key)}
    persisted (key : string) :
  filter (λ kv, Q kv.1) persisted !! key =
    if decide (Q key) then persisted !! key else None.
Proof.
  case_decide as HQ.
  - destruct (persisted !! key) as [v|] eqn:Hlook.
    + by apply map_lookup_filter_Some.
    + apply map_lookup_filter_None. by left.
  - apply map_lookup_filter_None. right. intros v _ HQ'. by apply HQ.
Qed.

Lemma persist_lookup (cfg : PersistConfig ProgressImage Percentage)
    persisted (key : string) :
  persist cfg persisted !! key =
    if decide (key ∈ persistDenylist cfg) then None else persisted !! key.
Proof.
  unfold persist.
  pose proof (lookup_filter_key (λ k, k ∉ persistDenylist cfg) persisted key)
    as Hkept.
  cbv beta in Hkept. rewrite Hkept. clear Hkept.
  destruct (decide (key ∈ persistDenylist cfg)) as [Hin|Hout].
  - rewrite decide_False by (intros Hnot; apply Hnot, Hin). reflexivity.
  - rewrite decide_True by exact Hout. reflexivity.
Qed.

Lemma restore_lookup (cfg : PersistConfig ProgressImage Percentage)
    persisted (key : string) :
  restore cfg persisted !! key =
    if decide (key ∈ persistDenylist cfg)
    then toObject (initialState cfg) !! key
    else migrate cfg persisted !! key.
Proof.
  unfold restore. cbn zeta. rewrite lookup_union.
  pose proof (lookup_filter_key (λ k, k ∈ persistDenylist cfg)
                (toObject (initialState cfg)) key) as Hreset.
  pose proof (lookup_filter_key (λ k, k ∉ persistDenylist cfg)
                (migrate cfg persisted) key) as Hkept.
  cbv beta in Hreset, Hkept. rewrite Hreset, Hkept. clear Hreset Hkept.
  destruct (decide (key ∈ persistDenylist cfg)) as [Hin|Hout].
  - rewrite decide_False by (intros Hnot; apply Hnot, Hin).
    destruct (toObject (initialState cfg) !! key); reflexivity.
  - rewrite decide_True by exact Hout.
    destruct (migrate cfg persisted !! key); reflexivity.
Qed.

(** Reading back the object of a state gives the state. *)
Lemma ofObject_toObject state : ofObject (toObject state) = Some state.
Proof. destruct state as [a b c d [p|] f g h i j k l m n]; reflexivity. Qed.

(** C7: the denylist of the persist configuration is exactly isConnected,
    denoiseProgress, status and cancellations.  The persisted snapshot of
    a state has none of these four keys and holds every other field of
    the state unchanged; a restore resets the four to their initial
    values whatever was persisted; and persisting a state and restoring
    it gives back the state with every other field, [_version] included,
    unchanged and the four fields at false, null, DISCONNECTED and empty. *)
Theorem persist_restore_round_trip state :
  persistDenylist config =
    ["isConnected"; "denoiseProgress"; "status"; "cancellations"] ∧
  (∀ key, persist config (toObject state) !! key =
          if decide (key ∈ persistDenylist config) then None
          else toObject state !! key) ∧
  (∀ persisted key, key ∈ persistDenylist config →
     restore config persisted !! key = toObject initialSystemState !! key) ∧
  ofObject (restore config (persist config (toObject state)))
    = Some (resetTransient state) ∧
  resetTransient state =
    set_cancellations []
      (set_status "DISCONNECTED"
         (set_denoiseProgress None (set_isConnected false state))).
Proof.
  split; [reflexivity|]. split; [|split; [|split]].
  - intros key. apply persist_lookup.
  - intros persisted key Hkey. rewrite restore_lookup.
    by rewrite decide_True.
  - destruct state. vm_compute. reflexivity.
  - reflexivity.
Qed.

(** C8: on a persisted shape without a [_version] key, the migration
    returns a shape whose [_version] is 1 and whose other keys hold what
    they held; on a shape with a [_version] key it returns the shape
    itself. *)
Theorem migrate_stamps_missing_version persisted :
  (persisted !! "_version" = None →
     migrateSystemState persisted !! "_version" = Some (VNumber 1) ∧
     ∀ key, key ≠ "_version" →
       migrateSystemState persisted !! key = persisted !! key) ∧
  (is_Some (persisted !! "_version") →
     migrateSystemState persisted = persisted).
Proof.
  unfold migrateSystemState. split.
  - intros ->. split; [apply lookup_insert_eq|].
    intros key Hkey. by apply lookup_insert_ne.
  - intros [v ->]. reflexivity.
Qed.

(** C9: migrating twice gives what migrating once gives. *)
Theorem migrate_idempotent persisted :
  migrateSystemState (migrateSystemState persisted) = migrateSystemState persisted.
Proof.
  unfold migrateSystemState at 2 3.
  destruct (persisted !! "_version") as [v|] eqn:Hversion.
  - unfold migrateSystemState. by rewrite Hversion.
  - unfold migrateSystemState. by rewrite lookup_insert_eq.
Qed.

End PersistenceGate.

(** ** Concrete runs *)

Lemma progress_of_cancelled_session_is_dropped_witness :
  let state := Sample.run [Sample.queueItem "canceled" "s1"] in
  "s1" ∈ cancellations state ∧
  systemReducer Sample.stepPercentage state (Sample.progress 5 "s1") = state.
Proof.
  cbn zeta.
  assert ("s1" ∈ cancellations (Sample.run [Sample.queueItem "canceled" "s1"]))
    as Hin by (vm_compute; left).
  split; [exact Hin|].
  exact (progress_of_cancelled_session_is_dropped Sample.stepPercentage
           (Sample.run [Sample.queueItem "canceled" "s1"])
           {| data_step := 5; data_total_steps := 10; data_order := 1;
              data_progress_image := tt;
              graph_execution_state_id := "s1"; queue_batch_id := "b1" |}
           Hin).
Defined.

(** After connection established, invocation started, a progress event
    and model load started, the status is LOADING_MODEL while progress is
    still set: progress is not confined to the status PROCESSING. *)
Lemma model_load_keeps_progress :
  let state := Sample.run Sample.modelLoadDuringProgress in
  status state = "LOADING_MODEL" ∧
  denoiseProgress state ≠ None ∧
  ¬ (statusInEnumeration state ∧ progressOnlyWhenProcessing state).
Proof.
  cbn zeta. split; [reflexivity|]. split; [by vm_compute|].
  intros [_ Hinv]. unfold progressOnlyWhenProcessing in Hinv.
  assert (status (Sample.run Sample.modelLoadDuringProgress) = "PROCESSING")
    as Hstatus by (apply Hinv; by vm_compute).
  vm_compute in Hstatus. discriminate Hstatus.
Qed.

(** Model load completed leaves progress set under the status CONNECTED:
    none of the three statuses of [progressOnlyWhenOnline] can be left
    out. *)
Example model_load_completed_keeps_progress :
  let state :=
    Sample.run (Sample.modelLoadDuringProgress ++ [socketModelLoadCompleted])%list in
  status state = "CONNECTED" ∧ denoiseProgress state ≠ None.
Proof. cbn zeta. split; [reflexivity|]. by vm_compute. Qed.

Lemma reachable_status_and_progress_witness :
  let actions := [socketConnected; socketInvocationStarted; Sample.progress 0 "s1"] in
  forallb (λ action, negb (isModelLoad action)) actions = true ∧
  progressOnlyWhenProcessing (Sample.run actions).
Proof.
  cbn zeta. split; [reflexivity|].
  exact (proj2 (proj2 (reachable_status_and_progress Sample.stepPercentage
           [socketConnected; socketInvocationStarted; Sample.progress 0 "s1"]))
           eq_refl).
Defined.

Lemma queue_item_status_changed_witness :
  let state := Sample.run [socketInvocationStarted; Sample.progress 0 "s1"] in
  ("canceled" ∈ ["completed"; "canceled"; "failed"] ∧
   "s1" ∈ cancellations
     (systemReducer Sample.stepPercentage state (Sample.queueItem "canceled" "s1"))) ∧
  ("pending" ∈ ["pending"; "in_progress"] ∧
   systemReducer Sample.stepPercentage state (Sample.queueItem "pending" "s1") = state).
Proof.
  cbn zeta. split.
  - assert ("canceled" ∈ ["completed"; "canceled"; "failed"]) as Hterm
      by (right; left).
    split; [exact Hterm|].
    exact (proj2 (proj2 (proj1 (queue_item_status_changed Sample.stepPercentage
             (Sample.run [socketInvocationStarted; Sample.progress 0 "s1"])
             {| queue_item_status := "canceled"; queue_item_session_id := "s1" |})
             Hterm))).
  - assert ("pending" ∈ ["pending"; "in_progress"]) as Hlive by left.
    split; [exact Hlive|].
    exact (proj2 (queue_item_status_changed Sample.stepPercentage
             (Sample.run [socketInvocationStarted; Sample.progress 0 "s1"])
             {| queue_item_status := "pending"; queue_item_session_id := "s1" |})
             Hlive).
Defined.

Lemma migrate_stamps_missing_version_witness :
  (Sample.unversioned !! "_version" = None ∧
   migrateSystemState Sample.unversioned !! "_version" = Some (VNumber 1)) ∧
  (is_Some (migrateSystemState Sample.unversioned !! "_version") ∧
   migrateSystemState (migrateSystemState Sample.unversioned)
     = migrateSystemState Sample.unversioned).
Proof.
  split.
  - split; [reflexivity|].
    exact (proj1 (proj1 (migrate_stamps_missing_version Sample.unversioned)
                    eq_refl)).
  - assert (is_Some (migrateSystemState Sample.unversioned !! "_version"))
      as Hsome by (exists (VNumber 1); reflexivity).
    split; [exact Hsome|].
    exact (proj2 (migrate_stamps_missing_version
                    (migrateSystemState Sample.unversioned)) Hsome).
Defined.

(** Two queue-item events report session s1 as completed, and
    [cancellations] lists s1 twice. *)
Lemma finished_twice_lists_session_twice :
  cancellations (Sample.run Sample.finishedTwice) = ["s1"; "s1"] ∧
  ¬ NoDup (cancellations (Sample.run Sample.finishedTwice)).
Proof.
  split; [reflexivity|].
  change (cancellations (Sample.run Sample.finishedTwice)) with ["s1"; "s1"].
  intros Hnd. apply NoDup_cons in Hnd as [Hnew _]. apply Hnew. left.
Qed.

Lemma cancellations_without_duplicates_witness :
  let actions := [Sample.queueItem "completed" "s1"; Sample.progress 3 "s1";
                  Sample.queueItem "failed" "s2"] in
  finishedOnce Sample.stepPercentage actions initialSystemState = true ∧
  NoDup (cancellations (Sample.run actions)).
Proof.
  cbn zeta. split; [reflexivity|].
  exact (cancellations_without_duplicates Sample.stepPercentage
           [Sample.queueItem "completed" "s1"; Sample.progress 3 "s1";
            Sample.queueItem "failed" "s2"] eq_refl).
Defined.

(** * Further properties of the handlers *)

Lemma includes_push_same (arr : list string) (x : string) :
  includes (push arr x) x = true.
Proof.
  apply includes_elem_of. unfold push. apply elem_of_app. right. left.
Qed.

Section Interleaving.

Context {ProgressImage Percentage : Type}.
Variable calculateStepPercentage : Z → Z → Z → Percentage.
Implicit Types (state : SystemState ProgressImage Percentage)
               (action pref socket : Action ProgressImage)
               (data : GeneratorProgressData ProgressImage).

Local Notation "'config'" :=
  (systemPersistConfig : PersistConfig ProgressImage Percentage).

Lemma toObject_lookup_kept state (key : string) :
  key ∉ persistDenylist config →
  toObject state !! key = toObject (resetTransient state) !! key.
Proof.
  intros Hkey.
  assert (persist config (toObject state)
          = persist config (toObject (resetTransient state))) as Hsame.
  { destruct state. vm_compute. reflexivity. }
  pose proof (persist_lookup config (toObject state) key) as Hleft.
  pose proof (persist_lookup config (toObject (resetTransient state)) key)
    as Hright.
  rewrite decide_False in Hleft by exact Hkey.
  rewrite decide_False in Hright by exact Hkey.
  rewrite <- Hleft, <- Hright, Hsame. reflexivity.
Qed.

Lemma resetTransient_socket state socket :
  isPreference socket = false →
  resetTransient (systemReducer calculateStepPercentage state socket)
  = resetTransient state.
Proof.
  intros Hsocket.
  destruct socket; simpl in Hsocket; try discriminate Hsocket;
    cbn [systemReducer]; try (by destruct state).
  - destruct (includes _ _); by destruct state.
  - destruct (includes _ _); by destruct state.
Qed.

(** The preference setters never write a field of the persist denylist:
    isConnected, denoiseProgress, status and cancellations are what they
    were. *)
Theorem preference_setters_keep_denylisted_fields state pref (key : string) :
  isPreference pref = true →
  key ∈ persistDenylist config →
  toObject (systemReducer calculateStepPercentage state pref) !! key
  = toObject state !! key.
Proof.
  intros Hpref Hkey. cbn in Hkey.
  rewrite !elem_of_cons, elem_of_nil in Hkey.
  destruct pref; simpl in Hpref; try discriminate Hpref;
    destruct state;
    destruct Hkey as [->|[->|[->|[->|[]]]]]; vm_compute; reflexivity.
Qed.

(** The socket handlers write only fields of the persist denylist: every
    other field of the state, the preferences and [_version], is what it
    was. *)
Theorem socket_handlers_keep_persisted_fields state socket (key : string) :
  isPreference socket = false →
  key ∉ persistDenylist config →
  toObject (systemReducer calculateStepPercentage state socket) !! key
  = toObject state !! key.
Proof.
  intros Hsocket Hkey.
  rewrite (toObject_lookup_kept _ key Hkey).
  rewrite (toObject_lookup_kept state key Hkey).
  by rewrite resetTransient_socket.
Qed.

(** A preference setter and a socket handler give the same state in
    either order. *)
Theorem preference_commutes_with_socket state pref socket :
  isPreference pref = true →
  isPreference socket = false →
  systemReducer calculateStepPercentage
    (systemReducer calculateStepPercentage state pref) socket
  = systemReducer calculateStepPercentage
      (systemReducer calculateStepPercentage state socket) pref.
Proof.
  intros Hpref Hsocket.
  destruct pref; simpl in Hpref; try discriminate Hpref;
    destruct socket; simpl in Hsocket; try discriminate Hsocket;
    destruct state; cbn -[includes]; try reflexivity;
    destruct (includes _ _); reflexivity.
Qed.

(** Handling an action twice gives what handling it once gives, for
    every action but a queue-item event with a terminal status. *)
Theorem handlers_idempotent state action :
  finishedSession action = None →
  systemReducer calculateStepPercentage
    (systemReducer calculateStepPercentage state action) action
  = systemReducer calculateStepPercentage state action.
Proof.
  intros Hfin.
  destruct action; cbn [finishedSession] in Hfin;
    try (destruct state; reflexivity).
  - destruct state as [a b c d e f g h i j k l m n]. cbn.
    destruct (includes n (graph_execution_state_id data)) eqn:Hcancelled;
      cbn; rewrite Hcancelled; reflexivity.
  - cbn [systemReducer].
    destruct (includes terminalStatuses (queue_item_status queue_item));
      [discriminate Hfin | reflexivity].
Qed.

(** Of two progress events in a row the later one decides, when its
    session is not listed in [cancellations]: the state is the one the
    later event alone gives. *)
Theorem later_progress_replaces_earlier state data1 data2 :
  graph_execution_state_id data2 ∉ cancellations state →
  systemReducer calculateStepPercentage
    (systemReducer calculateStepPercentage state (socketGeneratorProgress data1))
    (socketGeneratorProgress data2)
  = systemReducer calculateStepPercentage state (socketGeneratorProgress data2).
Proof.
  intros Hlive. apply includes_not_elem_of in Hlive.
  destruct state as [a b c d e f g h i j k l m n]. cbn in *.
  destruct (includes n (graph_execution_state_id data1));
    cbn; rewrite Hlive; reflexivity.
Qed.

(** A progress event and the terminal queue-item event of the same
    session give the same state in either order, the state the
    queue-item event alone gives. *)
Theorem progress_and_finish_in_either_order state data queue_item :
  queue_item_status queue_item ∈ terminalStatuses →
  graph_execution_state_id data = queue_item_session_id queue_item →
  let finish := socketQueueItemStatusChanged queue_item in
  let progress := socketGeneratorProgress data in
  systemReducer calculateStepPercentage
    (systemReducer calculateStepPercentage state progress) finish
  = systemReducer calculateStepPercentage state finish
  ∧ systemReducer calculateStepPercentage
      (systemReducer calculateStepPercentage state finish) progress
    = systemReducer calculateStepPercentage state finish.
Proof.
  intros Hterm Hsame. apply includes_elem_of in Hterm.
  cbn zeta. cbn [systemReducer]. rewrite Hterm, Hsame.
  destruct state as [a b c d e f g h i j k l m n]. cbn [cancellations].
  split.
  - destruct (includes n (queue_item_session_id queue_item)); reflexivity.
  - cbn -[includes push]. rewrite includes_push_same. reflexivity.
Qed.

(** After invocation started a progress event is always applied, also
    for a session that was listed in [cancellations] before: the progress
    on display is the event's, the status is PROCESSING and
    [cancellations] is empty. *)
Theorem progress_after_invocation_started_is_applied state data :
  let state' :=
    systemReducer calculateStepPercentage
      (systemReducer calculateStepPercentage state socketInvocationStarted)
      (socketGeneratorProgress data) in
  denoiseProgress state' =
    Some {| step := data_step data;
            total_steps := data_total_steps data;
            order := data_order data;
            percentage :=
              calculateStepPercentage
                (data_step data) (data_total_steps data) (data_order data);
            progress_image := data_progress_image data;
            session_id := graph_execution_state_id data;
            batch_id := queue_batch_id data |} ∧
  status state' = "PROCESSING" ∧
  cancellations state' = [].
Proof. destruct state. cbn. repeat split. Qed.

End Interleaving.

(** * Further properties of runs *)

Section Histories.

Context {ProgressImage Percentage : Type}.
Variable calculateStepPercentage : Z → Z → Z → Percentage.
Implicit Types (state : SystemState ProgressImage Percentage)
               (action : Action ProgressImage)
               (actions : list (Action ProgressImage))
               (data : GeneratorProgressData ProgressImage).

Lemma progress_dropped state data :
  includes (cancellations state) (graph_execution_state_id data) = true →
  systemReducer calculateStepPercentage state (socketGeneratorProgress data)
  = state.
Proof. intros Hin. cbn [systemReducer]. by rewrite Hin. Qed.

Lemma cancellations_prefix_reduce state action :
  negb (isInvocationStarted action) = true →
  cancellations state
    `prefix_of` cancellations (systemReducer calculateStepPercentage state action).
Proof.
  intros Hstart. rewrite cancellations_reduce.
  destruct (finishedSession action) as [session|];
    destruct action; try discriminate Hstart;
    first [reflexivity | by apply prefix_app_r].
Qed.

Lemma cancelled_session_stays (session : string) actions :
  ∀ state,
    forallb (λ action, negb (isInvocationStarted action)) actions = true →
    session ∈ cancellations state →
    session ∈ cancellations (dispatchAll calculateStepPercentage actions state).
Proof.
  induction actions as [|action rest IH]; intros state Hall Hin; [exact Hin|].
  simpl in Hall. apply andb_prop in Hall as [Hone Hrest].
  rewrite dispatch_cons. apply IH; [exact Hrest|].
  destruct (cancellations_prefix_reduce state action Hone) as [more ->].
  apply elem_of_app. by left.
Qed.

(** No action changes [_version]: along every run it is what it was at
    the start. *)
Theorem version_is_never_written actions :
  ∀ state,
    _version (dispatchAll calculateStepPercentage actions state) = _version state.
Proof.
  induction actions as [|action rest IH]; intros state; [reflexivity|].
  rewrite dispatch_cons, IH.
  destruct action; cbn [systemReducer]; try (by destruct state).
  - destruct (includes _ _); by destruct state.
  - destruct (includes _ _); by destruct state.
Qed.

(** In every state reached from the initial state, the status
    DISCONNECTED goes with [isConnected] false: once connected, the
    status is not DISCONNECTED until the socket disconnects. *)
Theorem reachable_disconnected_is_offline actions :
  disconnectedIsOffline
    (dispatchAll calculateStepPercentage actions initialSystemState).
Proof.
  apply (dispatch_invariant calculateStepPercentage disconnectedIsOffline
           (λ _, true)).
  - intros state action _. unfold disconnectedIsOffline. intros Hinv.
    destruct action; cbn [systemReducer];
      try (destruct state; cbn in *; first [exact Hinv | discriminate | done]).
    + destruct (includes _ _); [exact Hinv|]. destruct state; cbn. discriminate.
    + destruct (includes _ _); [|exact Hinv]. destruct state; cbn. discriminate.
  - apply forallb_const_true.
  - intros _. reflexivity.
Qed.

(** In every state reached from the initial state, the session whose
    progress is on display is not listed in [cancellations]. *)
Theorem reachable_progress_session_not_cancelled actions :
  progressSessionNotCancelled
    (dispatchAll calculateStepPercentage actions initialSystemState).
Proof.
  apply (dispatch_invariant calculateStepPercentage progressSessionNotCancelled
           (λ _, true)).
  - intros state action _. unfold progressSessionNotCancelled. intros Hinv.
    destruct action; cbn [systemReducer];
      try (destruct state; cbn in *; first [exact Hinv | discriminate]).
    + destruct (includes _ _) eqn:Hcancelled; [exact Hinv|].
      apply includes_not_elem_of in Hcancelled.
      destruct state; cbn in *. intros p [= <-]. exact Hcancelled.
    + destruct (includes _ _); [|exact Hinv]. destruct state; cbn. discriminate.
  - apply forallb_const_true.
  - intros p. discriminate.
Qed.

(** In every state reached from the initial state, the percentage of the
    progress on display is [calculateStepPercentage] of the step, total
    and order stored beside it. *)
Theorem reachable_percentage_matches_steps actions :
  percentageFromSteps calculateStepPercentage
    (dispatchAll calculateStepPercentage actions initialSystemState).
Proof.
  apply (dispatch_invariant calculateStepPercentage
           (percentageFromSteps calculateStepPercentage) (λ _, true)).
  - intros state action _. unfold percentageFromSteps. intros Hinv.
    destruct action; cbn [systemReducer];
      try (destruct state; cbn in *; first [exact Hinv | discriminate]).
    + destruct (includes _ _); [exact Hinv|].
      destruct state; cbn. intros p [= <-]. reflexivity.
    + destruct (includes _ _); [|exact Hinv]. destruct state; cbn. discriminate.
  - apply forallb_const_true.
  - intros p. discriminate.
Qed.

(** Until the next invocation started, [cancellations] only grows at its
    end: what it held at the start of a run is a prefix of what it holds
    at the end. *)
Theorem cancellations_grow_until_invocation_started actions :
  ∀ state,
    forallb (λ action, negb (isInvocationStarted action)) actions = true →
    cancellations state
      `prefix_of` cancellations (dispatchAll calculateStepPercentage actions state).
Proof.
  induction actions as [|action rest IH]; intros state Hall; [reflexivity|].
  simpl in Hall. apply andb_prop in Hall as [Hone Hrest].
  rewrite dispatch_cons.
  etrans; [by apply cancellations_prefix_reduce | by apply IH].
Qed.

(** A session listed in [cancellations] stays guarded over any run
    without invocation started: a progress event of that session arriving
    after the run changes nothing. *)
Theorem late_progress_is_dropped_after_any_run state actions data :
  graph_execution_state_id data ∈ cancellations state →
  forallb (λ action, negb (isInvocationStarted action)) actions = true →
  systemReducer calculateStepPercentage
    (dispatchAll calculateStepPercentage actions state)
    (socketGeneratorProgress data)
  = dispatchAll calculateStepPercentage actions state.
Proof.
  intros Hin Hall. apply progress_dropped, includes_elem_of.
  by apply cancelled_session_stays.
Qed.

(** When a session is listed in [cancellations] and the run has no
    invocation started, the progress events of that session can be taken
    out of the run: the final state is the same. *)
Theorem stale_progress_can_be_removed (session : string) actions :
  ∀ state,
    session ∈ cancellations state →
    forallb (λ action, negb (isInvocationStarted action)) actions = true →
    dispatchAll calculateStepPercentage
      (List.filter (λ action, negb (isProgressOf session action)) actions) state
    = dispatchAll calculateStepPercentage actions state.
Proof.
  induction actions as [|action rest IH]; intros state Hin Hall; [reflexivity|].
  simpl in Hall. apply andb_prop in Hall as [Hone Hrest].
  cbn [List.filter]. rewrite (dispatch_cons _ action rest).
  destruct (isProgressOf session action) eqn:Hstale; cbn [negb].
  - destruct action; try discriminate Hstale. cbn [isProgressOf] in Hstale.
    apply String.eqb_eq in Hstale.
    rewrite progress_dropped; [by apply IH|].
    apply includes_elem_of. by rewrite Hstale.
  - rewrite dispatch_cons. apply IH; [|exact Hrest].
    by apply (cancelled_session_stays session [action]); [simpl; rewrite Hone|].
Qed.

End Histories.

(** * What a run leaves to persist *)

Section Snapshots.

Context {ProgressImage Percentage : Type}.
Variable calculateStepPercentage : Z → Z → Z → Percentage.
Implicit Types (state : SystemState ProgressImage Percentage)
               (action : Action ProgressImage)
               (actions : list (Action ProgressImage)).

Local Notation "'config'" :=
  (systemPersistConfig : PersistConfig ProgressImage Percentage).

Lemma resetTransient_preference state1 state2 action :
  isPreference action = true →
  resetTransient state1 = resetTransient state2 →
  resetTransient (systemReducer calculateStepPercentage state1 action)
  = resetTransient (systemReducer calculateStepPercentage state2 action).
Proof.
  intros Hpref Hsame.
  destruct action; simpl in Hpref; try discriminate Hpref;
    destruct state1, state2; cbn in *; congruence.
Qed.

Lemma resetTransient_preferences_only actions :
  ∀ state1 state2,
    resetTransient state1 = resetTransient state2 →
    resetTransient (dispatchAll calculateStepPercentage actions state1)
    = resetTransient
        (dispatchAll calculateStepPercentage
           (List.filter isPreference actions) state2).
Proof.
  induction actions as [|action rest IH]; intros state1 state2 Hsame;
    [exact Hsame|].
  rewrite dispatch_cons. cbn [List.filter].
  destruct (isPreference action) eqn:Hkind.
  - rewrite dispatch_cons. apply IH. by apply resetTransient_preference.
  - apply IH. by rewrite resetTransient_socket.
Qed.

(** The fields that are persisted depend on the preference setters of a
    run alone: on every key off the persist denylist, the state at the
    end of a run holds what it holds at the end of the run with the socket
    actions taken out. *)
Theorem persisted_fields_follow_preferences_only actions state (key : string) :
  key ∉ persistDenylist config →
  toObject (dispatchAll calculateStepPercentage actions state) !! key
  = toObject
      (dispatchAll calculateStepPercentage (List.filter isPreference actions) state)
    !! key.
Proof.
  intros Hkey.
  rewrite (toObject_lookup_kept _ key Hkey).
  rewrite (toObject_lookup_kept
             (dispatchAll calculateStepPercentage
                (List.filter isPreference actions) state) key Hkey).
  by rewrite (resetTransient_preferences_only actions state state).
Qed.

End Snapshots.

(** * Further properties of the migration *)

Section MigrationShape.

Context {ProgressImage Percentage : Type}.
Implicit Types (persisted : gmap string (Value ProgressImage Percentage)).

(** The migration only ever adds the [_version] key: every key of the
    persisted shape is kept with its value, and the keys of the result
    are those of the shape together with [_version]. *)
Theorem migrate_only_adds_version persisted :
  persisted ⊆ migrateSystemState persisted ∧
  dom (migrateSystemState persisted) = {["_version"]} ∪ dom persisted.
Proof.
  unfold migrateSystemState.
  destruct (persisted !! "_version") as [v|] eqn:Hversion.
  - split; [reflexivity|].
    rewrite <- (insert_id persisted "_version" v Hversion) at 1.
    apply dom_insert_L.
  - split; [by apply insert_subseteq|]. apply dom_insert_L.
Qed.

End MigrationShape.

(** * Further concrete runs *)

Lemma preference_setters_keep_denylisted_fields_witness :
  let state := Sample.run [socketConnected; Sample.progress 2 "s1"] in
  isPreference (languageChanged (ProgressImage := unit) "de") = true ∧
  "status" ∈ persistDenylist (systemPersistConfig : PersistConfig unit Z) ∧
  (toObject (systemReducer Sample.stepPercentage state (languageChanged "de"))
     !! "status"
   = toObject state !! "status").
Proof.
  cbn zeta.
  assert ("status" ∈ persistDenylist (systemPersistConfig : PersistConfig unit Z))
    as Hkey by (right; right; left).
  split; [reflexivity|]. split; [exact Hkey|].
  exact (preference_setters_keep_denylisted_fields Sample.stepPercentage
           (Sample.run [socketConnected; Sample.progress 2 "s1"])
           (languageChanged "de") "status" eq_refl Hkey).
Defined.

Lemma socket_handlers_keep_persisted_fields_witness :
  let state := Sample.run [languageChanged "de"] in
  isPreference (Sample.queueItem "failed" "s1") = false ∧
  ("language" ∉ persistDenylist (systemPersistConfig : PersistConfig unit Z)) ∧
  (toObject
     (systemReducer Sample.stepPercentage state (Sample.queueItem "failed" "s1"))
     !! "language"
   = toObject state !! "language").
Proof.
  cbn zeta.
  assert ("language" ∉ persistDenylist (systemPersistConfig : PersistConfig unit Z))
    as Hkey by (apply includes_not_elem_of; reflexivity).
  split; [reflexivity|]. split; [exact Hkey|].
  exact (socket_handlers_keep_persisted_fields Sample.stepPercentage
           (Sample.run [languageChanged "de"])
           (Sample.queueItem "failed" "s1") "language" eq_refl Hkey).
Defined.

Lemma preference_commutes_with_socket_witness :
  let state := Sample.run [socketConnected] in
  isPreference (setShouldConfirmOnDelete (ProgressImage := unit) false) = true ∧
  isPreference (Sample.progress 4 "s1") = false ∧
  systemReducer Sample.stepPercentage
    (systemReducer Sample.stepPercentage state (setShouldConfirmOnDelete false))
    (Sample.progress 4 "s1")
  = systemReducer Sample.stepPercentage
      (systemReducer Sample.stepPercentage state (Sample.progress 4 "s1"))
      (setShouldConfirmOnDelete false).
Proof.
  cbn zeta. split; [reflexivity|]. split; [reflexivity|].
  exact (preference_commutes_with_socket Sample.stepPercentage
           (Sample.run [socketConnected])
           (setShouldConfirmOnDelete false) (Sample.progress 4 "s1")
           eq_refl eq_refl).
Defined.

Lemma handlers_idempotent_witness :
  let state := Sample.run [socketInvocationStarted] in
  finishedSession (Sample.progress 4 "s1") = None ∧
  systemReducer Sample.stepPercentage
    (systemReducer Sample.stepPercentage state (Sample.progress 4 "s1"))
    (Sample.progress 4 "s1")
  = systemReducer Sample.stepPercentage state (Sample.progress 4 "s1").
Proof.
  cbn zeta. split; [reflexivity|].
  exact (handlers_idempotent Sample.stepPercentage
           (Sample.run [socketInvocationStarted]) (Sample.progress 4 "s1")
           eq_refl).
Defined.

Lemma later_progress_replaces_earlier_witness :
  let state := Sample.run [Sample.queueItem "canceled" "s1"] in
  ("s2" ∉ cancellations state) ∧
  systemReducer Sample.stepPercentage
    (systemReducer Sample.stepPercentage state (Sample.progress 1 "s1"))
    (Sample.progress 2 "s2")
  = systemReducer Sample.stepPercentage state (Sample.progress 2 "s2").
Proof.
  cbn zeta.
  assert ("s2" ∉ cancellations (Sample.run [Sample.queueItem "canceled" "s1"]))
    as Hlive by (apply includes_not_elem_of; reflexivity).
  split; [exact Hlive|].
  exact (later_progress_replaces_earlier Sample.stepPercentage
           (Sample.run [Sample.queueItem "canceled" "s1"])
           {| data_step := 1; data_total_steps := 10; data_order := 1;
              data_progress_image := tt;
              graph_execution_state_id := "s1"; queue_batch_id := "b1" |}
           {| data_step := 2; data_total_steps := 10; data_order := 1;
              data_progress_image := tt;
              graph_execution_state_id := "s2"; queue_batch_id := "b1" |}
           Hlive).
Defined.

Lemma progress_and_finish_in_either_order_witness :
  let state := Sample.run [socketConnected; socketInvocationStarted] in
  "failed" ∈ terminalStatuses ∧
  systemReducer Sample.stepPercentage
    (systemReducer Sample.stepPercentage state (Sample.progress 7 "s1"))
    (Sample.queueItem "failed" "s1")
  = systemReducer Sample.stepPercentage
      (systemReducer Sample.stepPercentage state (Sample.queueItem "failed" "s1"))
      (Sample.progress 7 "s1").
Proof.
  cbn zeta.
  assert ("failed" ∈ terminalStatuses) as Hterm by (right; right; left).
  split; [exact Hterm|].
  pose proof (progress_and_finish_in_either_order Sample.stepPercentage
                (Sample.run [socketConnected; socketInvocationStarted])
                {| data_step := 7; data_total_steps := 10; data_order := 1;
                   data_progress_image := tt;
                   graph_execution_state_id := "s1"; queue_batch_id := "b1" |}
                {| queue_item_status := "failed"; queue_item_session_id := "s1" |}
                Hterm eq_refl) as [Hfirst Hsecond].
  exact (eq_trans Hfirst (eq_sym Hsecond)).
Defined.

Lemma cancellations_grow_until_invocation_started_witness :
  let actions := [Sample.queueItem "completed" "s2"; socketDisconnected] in
  let state := Sample.run [Sample.queueItem "canceled" "s1"] in
  forallb (λ action, negb (isInvocationStarted action)) actions = true ∧
  cancellations state
    `prefix_of` cancellations (dispatchAll Sample.stepPercentage actions state).
Proof.
  cbn zeta. split; [reflexivity|].
  exact (cancellations_grow_until_invocation_started Sample.stepPercentage
           [Sample.queueItem "completed" "s2"; socketDisconnected]
           (Sample.run [Sample.queueItem "canceled" "s1"]) eq_refl).
Defined.

Lemma late_progress_is_dropped_after_any_run_witness :
  let actions := [socketModelLoadStarted; Sample.progress 3 "s2";
                  socketModelLoadCompleted] in
  let state := Sample.run [Sample.queueItem "canceled" "s1"] in
  "s1" ∈ cancellations state ∧
  forallb (λ action, negb (isInvocationStarted action)) actions = true ∧
  systemReducer Sample.stepPercentage
    (dispatchAll Sample.stepPercentage actions state) (Sample.progress 9 "s1")
  = dispatchAll Sample.stepPercentage actions state.
Proof.
  cbn zeta.
  assert ("s1" ∈ cancellations (Sample.run [Sample.queueItem "canceled" "s1"]))
    as Hin by (vm_compute; left).
  split; [exact Hin|]. split; [reflexivity|].
  exact (late_progress_is_dropped_after_any_run Sample.stepPercentage
           (Sample.run [Sample.queueItem "canceled" "s1"])
           [socketModelLoadStarted; Sample.progress 3 "s2";
            socketModelLoadCompleted]
           {| data_step := 9; data_total_steps := 10; data_order := 1;
              data_progress_image := tt;
              graph_execution_state_id := "s1"; queue_batch_id := "b1" |}
           Hin eq_refl).
Defined.

Lemma stale_progress_can_be_removed_witness :
  let actions := [Sample.progress 5 "s1"; socketConnected;
                  Sample.progress 6 "s1"; Sample.progress 1 "s2"] in
  let state := Sample.run [Sample.queueItem "canceled" "s1"] in
  "s1" ∈ cancellations state ∧
  forallb (λ action, negb (isInvocationStarted action)) actions = true ∧
  dispatchAll Sample.stepPercentage [socketConnected; Sample.progress 1 "s2"] state
  = dispatchAll Sample.stepPercentage actions state.
Proof.
  cbn zeta.
  assert ("s1" ∈ cancellations (Sample.run [Sample.queueItem "canceled" "s1"]))
    as Hin by (vm_compute; left).
  split; [exact Hin|]. split; [reflexivity|].
  exact (stale_progress_can_be_removed Sample.stepPercentage "s1"
           [Sample.progress 5 "s1"; socketConnected;
            Sample.progress 6 "s1"; Sample.progress 1 "s2"]
           (Sample.run [Sample.queueItem "canceled" "s1"]) Hin eq_refl).
Defined.

Lemma persisted_fields_follow_preferences_only_witness :
  let actions := [socketConnected; languageChanged "de";
                  Sample.queueItem "failed" "s1"; setEnableImageDebugging true] in
  ("enableImageDebugging"
     ∉ persistDenylist (systemPersistConfig : PersistConfig unit Z)) ∧
  (toObject (Sample.run actions) !! "enableImageDebugging"
   = toObject (Sample.run [languageChanged "de"; setEnableImageDebugging true])
     !! "enableImageDebugging").
Proof.
  cbn zeta.
  assert ("enableImageDebugging"
            ∉ persistDenylist (systemPersistConfig : PersistConfig unit Z))
    as Hkey by (apply includes_not_elem_of; reflexivity).
  split; [exact Hkey|].
  exact (persisted_fields_follow_preferences_only Sample.stepPercentage
           [socketConnected; languageChanged "de";
            Sample.queueItem "failed" "s1"; setEnableImageDebugging true]
           initialSystemState "enableImageDebugging" Hkey).
Defined.
